(** * dry_counties_map: status table, join and spot checks

    A shallow embedding of [dry_counties_map.py].  Python [str] values are
    modelled as [string]; [str.lower] is modelled on ASCII text, where it maps
    ['A'..'Z'] to ['a'..'z'] and leaves every other character alone.  The
    module-level dictionaries are finite maps, the data frames are lists of
    row records, and the polygon geometry together with its simplification
    is kept abstract. *)

From Stdlib Require Import Ascii String List Bool NArith.
From stdpp Require Import base option list gmap strings fin_maps.

Local Open Scope string_scope.
Local Open Scope list_scope.

#[local] Set Warnings "-clear-no-such-hyp".

(** ** Strings *)

Module PyStr.

(** [c.lower()] for a single ASCII character. *)
Definition lower_char (c : ascii) : ascii :=
  let n := N_of_ascii c in
  if ((65 <=? n) && (n <=? 90))%N then ascii_of_N (n + 32) else c.

(** [s.lower()]. *)
Fixpoint lower (s : string) : string :=
  match s with
  | EmptyString => EmptyString
  | String c s' => String (lower_char c) (lower s')
  end.

(** Python truthiness of a string: the empty string is falsy. *)
Definition truthy (s : string) : bool :=
  match s with
  | EmptyString => false
  | String _ _ => true
  end.

End PyStr.

(** ** Module-level constants *)

(** The literal of [STATE_FIPS_TO_NAME], in source order. *)
Definition STATE_FIPS_TO_NAME_items : list (string * string) :=
  [ ("01", "Alabama"); ("02", "Alaska"); ("04", "Arizona"); ("05", "Arkansas");
    ("06", "California"); ("08", "Colorado"); ("09", "Connecticut");
    ("10", "Delaware"); ("11", "District of Columbia"); ("12", "Florida");
    ("13", "Georgia"); ("15", "Hawaii"); ("16", "Idaho"); ("17", "Illinois");
    ("18", "Indiana"); ("19", "Iowa"); ("20", "Kansas"); ("21", "Kentucky");
    ("22", "Louisiana"); ("23", "Maine"); ("24", "Maryland");
    ("25", "Massachusetts"); ("26", "Michigan"); ("27", "Minnesota");
    ("28", "Mississippi"); ("29", "Missouri"); ("30", "Montana");
    ("31", "Nebraska"); ("32", "Nevada"); ("33", "New Hampshire");
    ("34", "New Jersey"); ("35", "New Mexico"); ("36", "New York");
    ("37", "North Carolina"); ("38", "North Dakota"); ("39", "Ohio");
    ("40", "Oklahoma"); ("41", "Oregon"); ("42", "Pennsylvania");
    ("44", "Rhode Island"); ("45", "South Carolina"); ("46", "South Dakota");
    ("47", "Tennessee"); ("48", "Texas"); ("49", "Utah"); ("50", "Vermont");
    ("51", "Virginia"); ("53", "Washington"); ("54", "West Virginia");
    ("55", "Wisconsin"); ("56", "Wyoming"); ("72", "Puerto Rico") ].

(** A dict display evaluates its items left to right, each one a store. *)
Definition dict_of_items {V} (items : list (string * V)) : gmap string V :=
  fold_left (fun d kv => <[kv.1 := kv.2]> d) items ∅.

Definition STATE_FIPS_TO_NAME : gmap string string :=
  dict_of_items STATE_FIPS_TO_NAME_items.

(** [{v: k for k, v in STATE_FIPS_TO_NAME.items()}]. *)
Definition STATE_NAME_TO_FIPS : gmap string string :=
  dict_of_items (map (fun kv => (kv.2, kv.1)) STATE_FIPS_TO_NAME_items).

Definition STATUS_DRY : string := "Dry".
Definition STATUS_MOIST : string := "Moist".
Definition STATUS_WET : string := "Wet".

(** ** Status table builder *)

(** The dictionary [status] of [_build_status_map], keyed by
    [(STATEFP, county_name_lower)]. *)
Abbreviation status_map := (gmap (string * string) string).

(** The inner [for c in county_list: status[(sfips, c.lower())] = stat]. *)
Definition add_counties (sfips : string) (county_list : list string)
    (stat : string) (status : status_map) : status_map :=
  fold_left (fun st c => <[(sfips, PyStr.lower c) := stat]> st) county_list status.

(** The closure [add]; the dictionary it mutates is passed and returned. *)
Definition add (state_name : string) (county_list : list string)
    (stat : string) (status : status_map) : status_map :=
  match STATE_NAME_TO_FIPS !! state_name with
  | None => status
  | Some sfips =>
      if negb (PyStr.truthy sfips) then status
      else add_counties sfips county_list stat status
  end.

(** One call [add(state_name, county_list, stat)]. *)
Record add_call := AddCall {
  call_state_name : string;
  call_county_list : list string;
  call_stat : string
}.

Definition run_add (status : status_map) (c : add_call) : status_map :=
  add (call_state_name c) (call_county_list c) (call_stat c) status.

(** A sequence of [add] calls, executed in order on the same dictionary. *)
Definition run_adds (calls : list add_call) (status : status_map) : status_map :=
  fold_left run_add calls status.

(** The calls in the body of [_build_status_map], in source order. *)
Definition ADD_CALLS : list add_call :=
  [ AddCall "Arkansas"
      [ "Ashley"; "Bradley"; "Clay"; "Cleburne"; "Craighead"; "Crawford";
        "Faulkner"; "Fulton"; "Grant"; "Hempstead"; "Howard"; "Independence";
        "Izard"; "Johnson"; "Lafayette"; "Lawrence"; "Lincoln"; "Logan";
        "Lonoke"; "Montgomery"; "Nevada"; "Newton"; "Perry"; "Pike"; "Pope";
        "Scott"; "Searcy"; "Sebastian"; "Stone"; "White"; "Yell" ] STATUS_DRY;
    AddCall "Texas" [ "Borden"; "Kent"; "Roberts" ] STATUS_DRY;
    AddCall "Mississippi" [ "Benton" ] STATUS_DRY;
    AddCall "Florida" [ "Liberty" ] STATUS_DRY;
    AddCall "South Dakota" [ "Oglala Lakota"; "Shannon" ] STATUS_DRY;
    AddCall "Alabama"
      [ "Blount"; "Cherokee"; "Chilton"; "Clarke"; "Clay"; "Coffee";
        "Cullman"; "DeKalb"; "Fayette"; "Franklin"; "Geneva"; "Jackson";
        "Lamar"; "Lauderdale"; "Lawrence"; "Marion"; "Marshall"; "Monroe";
        "Morgan"; "Pickens"; "Randolph"; "Washington"; "Winston" ] STATUS_MOIST;
    AddCall "Kentucky"
      [ "Adair"; "Allen"; "Ballard"; "Bath"; "Breathitt"; "Butler";
        "Carlisle"; "Casey"; "Clinton"; "Crittenden"; "Cumberland";
        "Elliott"; "Estill"; "Fleming"; "Hancock"; "Hart"; "Hickman";
        "Jackson"; "Knott"; "Knox"; "Larue"; "Lawrence"; "Lee"; "Leslie";
        "Lincoln"; "McCreary"; "McLean"; "Martin"; "Menifee"; "Metcalfe";
        "Monroe"; "Morgan"; "Ohio"; "Owsley"; "Powell"; "Robertson";
        "Rockcastle"; "Russell"; "Webster" ] STATUS_MOIST;
    AddCall "Mississippi"
      [ "Alcorn"; "Amite"; "Calhoun"; "Chickasaw"; "Choctaw"; "Clarke";
        "Covington"; "Franklin"; "George"; "Greene"; "Itawamba"; "Jasper";
        "Jones"; "Kemper"; "Lamar"; "Lawrence"; "Leake"; "Lincoln";
        "Monroe"; "Neshoba"; "Newton"; "Pearl River"; "Pontotoc";
        "Prentiss"; "Scott"; "Simpson"; "Smith"; "Tate"; "Tippah";
        "Tishomingo"; "Union"; "Wayne"; "Webster" ] STATUS_MOIST;
    AddCall "Tennessee"
      [ "Anderson"; "Bedford"; "Bledsoe"; "Blount"; "Bradley"; "Campbell";
        "Cannon"; "Carroll"; "Carter"; "Cheatham"; "Chester"; "Claiborne";
        "Clay"; "Cocke"; "Coffee"; "Crockett"; "Cumberland"; "Decatur";
        "DeKalb"; "Dickson"; "Dyer"; "Fayette"; "Fentress"; "Franklin";
        "Gibson"; "Giles"; "Grainger"; "Greene"; "Grundy"; "Hamblen";
        "Hancock"; "Hardeman"; "Hardin"; "Hawkins"; "Haywood"; "Henderson";
        "Henry"; "Hickman"; "Houston"; "Humphreys"; "Jackson"; "Jefferson";
        "Johnson"; "Lake"; "Lauderdale"; "Lawrence"; "Lewis"; "Lincoln";
        "Loudon"; "Macon"; "Madison"; "Marion"; "Marshall"; "Maury";
        "McMinn"; "McNairy"; "Meigs"; "Monroe"; "Montgomery"; "Moore";
        "Morgan"; "Obion"; "Overton"; "Perry"; "Pickett"; "Polk"; "Putnam";
        "Rhea"; "Roane"; "Robertson"; "Rutherford"; "Scott"; "Sequatchie";
        "Sevier"; "Smith"; "Stewart"; "Sullivan"; "Sumner"; "Tipton";
        "Trousdale"; "Unicoi"; "Union"; "Van Buren"; "Warren";
        "Washington"; "Wayne"; "Weakley"; "White"; "Williamson"; "Wilson" ]
      STATUS_MOIST;
    AddCall "Florida" [ "Lafayette" ] STATUS_MOIST;
    AddCall "Georgia"
      [ "Bleckley"; "Butts"; "Coweta"; "Decatur"; "Dodge"; "Effingham";
        "Hart" ] STATUS_MOIST ].

(** [_build_status_map()]: start from the empty dict, run the calls. *)
Definition _build_status_map : status_map := run_adds ADD_CALLS ∅.

Definition COUNTY_STATUS_MAP : status_map := _build_status_map.

(** ** Data frames *)

(** A row of the county GeoDataFrame read from the shapefile: the columns
    the program uses, with the polygon of type [G]. *)
Module Gdf.
Record row (G : Type) := Row {
  GEOID : string;
  STATEFP : string;
  NAME : string;
  geometry : G
}.
Arguments Row {G}.
Arguments GEOID {G}.
Arguments STATEFP {G}.
Arguments NAME {G}.
Arguments geometry {G}.

(** A row once the columns [status] and [state_name] are assigned.  A
    [Series.map] through a dict leaves a missing value where the key is
    absent, hence the [option]. *)
Record joined (G : Type) := Joined {
  base : row G;
  status : string;
  state_name : option string
}.
Arguments Joined {G}.
Arguments base {G}.
Arguments status {G}.
Arguments state_name {G}.
End Gdf.

(** A row of the flat table [df]. *)
Module Df.
Record row := Row {
  fips : string;
  county : string;
  state : option string;
  status : string
}.
End Df.

(** A GeoJSON feature and the feature collection handed to plotly. *)
Module GeoJson.
Record properties := Properties {
  name : string;
  state : option string
}.
Record feature (J : Type) := Feature {
  type : string;
  id : string;
  props : properties;
  geometry : J
}.
Arguments Feature {J}.
Arguments type {J}.
Arguments id {J}.
Arguments props {J}.
Arguments geometry {J}.
Record collection (J : Type) := Collection {
  ctype : string;
  features : list (feature J)
}.
Arguments Collection {J}.
Arguments ctype {J}.
Arguments features {J}.
End GeoJson.

(** ** Build dataset *)

(** [set(STATE_FIPS_TO_NAME.keys())]. *)
Definition valid_states : gset string := dom STATE_FIPS_TO_NAME.

(** The key the join looks up for a region. *)
Definition status_key {G} (row : Gdf.row G) : string * string :=
  (Gdf.STATEFP row, PyStr.lower (Gdf.NAME row)).

(** [dict.get(key, default)]. *)
Definition dict_get `{Countable K} {V} (d : gmap K V) (key : K) (dflt : V) : V :=
  match d !! key with
  | Some v => v
  | None => dflt
  end.

(** The closure [get_status] of [build_county_dataset]. *)
Definition get_status {G} (row : Gdf.row G) : string :=
  let key := status_key row in
  dict_get COUNTY_STATUS_MAP key STATUS_WET.

Section BuildDataset.

Context {geometry json : Type}.

(** [GeoSeries.simplify(tolerance=0.005, preserve_topology=True)] on one
    polygon, and the conversion of one polygon to its GeoJSON geometry;
    both are calls into the geometry library. *)
Variable simplify : geometry -> geometry.
Variable geometry_to_json : geometry -> json.

(** [gdf[gdf["STATEFP"].isin(valid_states)].copy()]. *)
Definition filter_states (gdf : list (Gdf.row geometry)) : list (Gdf.row geometry) :=
  filter (fun r => Gdf.STATEFP r ∈ valid_states) gdf.

(** The two column assignments: [status] by a row-wise [apply] of
    [get_status], [state_name] by mapping [STATEFP] through the dict.  The
    row-wise [apply] is taken to yield one value per row, in row order. *)
Definition assign_columns (gdf : list (Gdf.row geometry)) : list (Gdf.joined geometry) :=
  map (fun r => Gdf.Joined r (get_status r) (STATE_FIPS_TO_NAME !! Gdf.STATEFP r)) gdf.

(** One row of [pd.DataFrame({fips, county, state, status})]. *)
Definition table_row (j : Gdf.joined geometry) : Df.row :=
  Df.Row (Gdf.GEOID (Gdf.base j)) (Gdf.NAME (Gdf.base j))
         (Gdf.state_name j) (Gdf.status j).

(** [gdf_simplified]: a copy whose geometry column is simplified. *)
Definition simplify_rows (gdf : list (Gdf.joined geometry)) : list (Gdf.joined geometry) :=
  map (fun j =>
         let r := Gdf.base j in
         Gdf.Joined
           (Gdf.Row (Gdf.GEOID r) (Gdf.STATEFP r) (Gdf.NAME r) (simplify (Gdf.geometry r)))
           (Gdf.status j) (Gdf.state_name j)) gdf.

(** The body of the [iterrows] loop. *)
Definition make_feature (row : Gdf.joined geometry) : GeoJson.feature json :=
  GeoJson.Feature "Feature"
    (Gdf.GEOID (Gdf.base row))
    (GeoJson.Properties (Gdf.NAME (Gdf.base row)) (Gdf.state_name row))
    (geometry_to_json (Gdf.geometry (Gdf.base row))).

Definition build_county_dataset (gdf : list (Gdf.row geometry))
    : list Df.row * GeoJson.collection json :=
  let gdf := filter_states gdf in
  let gdf := assign_columns gdf in
  let df := map table_row gdf in
  let gdf_simplified := simplify_rows gdf in
  let features := map make_feature gdf_simplified in
  let geojson := GeoJson.Collection "FeatureCollection" features in
  (df, geojson).

End BuildDataset.

(** ** Verification / spot checks *)

(** The list [checks] of [verify_data]: (county, state, expected, note). *)
Definition checks : list (string * string * string * string) :=
  [ ("Hot Spring", "Arkansas", STATUS_WET, "Voted wet Nov 2022");
    ("Borden", "Texas", STATUS_DRY, "One of only 3 dry TX counties");
    ("Kent", "Texas", STATUS_DRY, "One of only 3 dry TX counties");
    ("Roberts", "Texas", STATUS_DRY, "One of only 3 dry TX counties");
    ("Benton", "Mississippi", STATUS_DRY, "Only fully dry MS county");
    ("Liberty", "Florida", STATUS_DRY, "Only fully dry FL county");
    ("Cullman", "Alabama", STATUS_MOIST, "Moist - has wet cities");
    ("Throckmorton", "Texas", STATUS_WET, "Voted wet Nov 2024");
    ("Davidson", "Tennessee", STATUS_WET, "Nashville - fully wet");
    ("Shelby", "Tennessee", STATUS_WET, "Memphis - fully wet");
    ("Moore", "Tennessee", STATUS_MOIST, "Jack Daniel's county - moist") ].

(** [df[(df["county"] == county) & (df["state"] == state)]]. *)
Definition select_rows (df : list Df.row) (county state : string) : list Df.row :=
  filter (fun r => Df.county r = county ∧ Df.state r = Some state) df.

(** The line printed for a check with no matching row. *)
Definition miss_line (county state : string) : string :=
  "    MISS  " +:+ county +:+ " County, " +:+ state +:+ " — not found in data".

(** The line printed for a check with a matching row. *)
Definition result_line (ok county state actual expected note : string) : string :=
  "    " +:+ ok +:+ "  " +:+ county +:+ " County, " +:+ state +:+ ": " +:+ actual
  +:+ " (expected " +:+ expected +:+ ") — " +:+ note.

Definition header_line : string :=
  String "010"%char "  Spot-checking known counties:".

(** One iteration of the loop over [checks]; the accumulator holds the
    lines printed so far and [all_pass]. *)
Definition check_step (df : list Df.row) (acc : list string * bool)
    (chk : string * string * string * string) : list string * bool :=
  let '(county, state, expected, note) := chk in
  let '(out, all_pass) := acc in
  match select_rows df county state with
  | [] => (out ++ [miss_line county state], false)
  | row :: _ =>
      let actual := Df.status row in
      let ok := if decide (actual = expected) then "PASS" else "FAIL" in
      let all_pass := if decide (ok = "FAIL") then false else all_pass in
      (out ++ [result_line ok county state actual expected note], all_pass)
  end.

(** The loop of [verify_data] over an arbitrary check list. *)
Definition run_checks (cs : list (string * string * string * string))
    (df : list Df.row) : list string * bool :=
  fold_left (check_step df) cs ([header_line], true).

(** [verify_data(df)]: the printed lines and the returned [all_pass]. *)
Definition verify_data (df : list Df.row) : list string * bool :=
  run_checks checks df.

(** ** Notions used to state the properties *)

(** The keys one [add] call assigns, in assignment order: none when the
    state name has no state code. *)
Definition call_keys (c : add_call) : list (string * string) :=
  match STATE_NAME_TO_FIPS !! call_state_name c with
  | None => []
  | Some sfips =>
      if PyStr.truthy sfips
      then map (fun n => (sfips, PyStr.lower n)) (call_county_list c)
      else []
  end.

(** The calls of a sequence that write key [k], in call order. *)
Definition writers (k : string * string) (calls : list add_call) : list add_call :=
  filter (fun c => k ∈ call_keys c) calls.




(** A check passes on a table: some row matches its county and state
    names exactly, and the first such row carries the expected status. *)
Definition check_passes (df : list Df.row)
    (chk : string * string * string * string) : Prop :=
  let '(county, state, expected, note) := chk in
  exists row rest,
    select_rows df county state = row :: rest /\ Df.status row = expected.

(** The line a check must print: MISS when no row matches, otherwise PASS
    or FAIL by equality of the first matching row's status with the
    expected one. *)
Definition check_reported (df : list Df.row)
    (chk : string * string * string * string) (line : string) : Prop :=
  let '(county, state, expected, note) := chk in
  match select_rows df county state with
  | [] => line = miss_line county state
  | row :: _ =>
      (Df.status row = expected ->
       line = result_line "PASS" county state (Df.status row) expected note) /\
      (Df.status row <> expected ->
       line = result_line "FAIL" county state (Df.status row) expected note)
  end.




(** ** Dependency check *)





(** ** Map statistics *)

(** [len(df[df["status"] == s])]. *)
Definition count_status (df : list Df.row) (s : string) : nat :=
  length (filter (fun r => Df.status r = s) df).

(** The statistics [create_map] computes first:
    [(n_dry, n_moist, n_wet, total)]. *)
Definition county_stats (df : list Df.row) : nat * nat * nat * nat :=
  (count_status df STATUS_DRY, count_status df STATUS_MOIST,
   count_status df STATUS_WET, length df).

(** The colour of each status, and the legend order given to plotly. *)
Definition color_map : gmap string string :=
  dict_of_items
    [ (STATUS_WET, "#c7e9c0"); (STATUS_MOIST, "#fdae6b"); (STATUS_DRY, "#e31a1c") ].

Definition category_orders_status : list string :=
  [ STATUS_WET; STATUS_MOIST; STATUS_DRY ].

(** The input collection has a region of this county name in the state of
    this name. *)
Definition has_region {G} (gdf : list (Gdf.row G)) (county state : string) : Prop :=
  exists r, r ∈ gdf /\ Gdf.NAME r = county /\
            STATE_FIPS_TO_NAME !! Gdf.STATEFP r = Some state.

(** * Properties *)

(** ** Lowercasing *)









(** ** The status table builder *)

Section Builder.

Implicit Types (status : status_map) (k : string * string) (c : add_call).

Lemma add_counties_lookup sfips county_list stat status k :
  add_counties sfips county_list stat status !! k =
    if decide (k ∈ map (fun n => (sfips, PyStr.lower n)) county_list)
    then Some stat else status !! k.
Proof.
  unfold add_counties. revert status.
  induction county_list as [|n l IH]; intros status; cbn [map fold_left].
  - rewrite decide_False by apply not_elem_of_nil. done.
  - rewrite IH. destruct (decide (k = (sfips, PyStr.lower n))) as [->|Hne].
    + rewrite lookup_insert_eq.
      rewrite (decide_True (P := _ ∈ _ :: _)) by apply list_elem_of_here.
      by case_decide.
    + rewrite lookup_insert_ne by done.
      destruct (decide (k ∈ map (fun n0 => (sfips, PyStr.lower n0)) l)) as [Hin|Hin].
      * rewrite decide_True by (by apply list_elem_of_further). done.
      * rewrite decide_False; [done|].
        intros [?|?]%elem_of_cons; done.
Qed.

Lemma run_add_lookup status c k :
  run_add status c !! k =
    if decide (k ∈ call_keys c) then Some (call_stat c) else status !! k.
Proof.
  unfold run_add, add, call_keys.
  destruct (STATE_NAME_TO_FIPS !! call_state_name c) as [sfips|].
  - destruct (PyStr.truthy sfips); cbn [negb].
    + apply add_counties_lookup.
    + rewrite decide_False by apply not_elem_of_nil. done.
  - rewrite decide_False by apply not_elem_of_nil. done.
Qed.

Lemma run_adds_snoc calls c status :
  run_adds (calls ++ [c]) status = run_add (run_adds calls status) c.
Proof. unfold run_adds. by rewrite fold_left_app. Qed.

Lemma writers_snoc k calls c :
  writers k (calls ++ [c]) =
    if decide (k ∈ call_keys c) then writers k calls ++ [c] else writers k calls.
Proof.
  unfold writers. rewrite filter_app, filter_cons, filter_nil.
  destruct (decide (k ∈ call_keys c)); [done | by rewrite app_nil_r].
Qed.

Lemma run_adds_lookup calls status k :
  run_adds calls status !! k =
    match last (writers k calls) with
    | Some c => Some (call_stat c)
    | None => status !! k
    end.
Proof.
  induction calls as [|c calls IH] using rev_ind; [done|].
  rewrite run_adds_snoc, run_add_lookup, writers_snoc.
  case_decide; [by rewrite last_snoc | done].
Qed.

End Builder.

(** C4.  Last-write-wins: after any sequence of [add] calls on an empty
    dictionary, the value stored under a key is the status of the last call
    that wrote the key; a key written by exactly one call therefore holds
    that call's status, and a key no call wrote is absent.  In particular
    this holds of the table [_build_status_map] returns. *)
Theorem status_map_last_write_wins (calls : list add_call) (k : string * string) :
  run_adds calls ∅ !! k = call_stat <$> last (writers k calls).
Proof.
  rewrite run_adds_lookup, lookup_empty.
  by destruct (last (writers k calls)).
Qed.

Lemma status_map_single_writer calls k c :
  writers k calls = [c] -> run_adds calls ∅ !! k = Some (call_stat c).
Proof. intros H. by rewrite run_adds_lookup, H. Qed.

Lemma build_status_map_lookup k :
  _build_status_map !! k = call_stat <$> last (writers k ADD_CALLS).
Proof.
  unfold _build_status_map. rewrite run_adds_lookup, lookup_empty.
  by destruct (last (writers k ADD_CALLS)).
Qed.

(** C5.  An [add] call whose state name is not a key of
    [STATE_NAME_TO_FIPS] returns the dictionary it was given: nothing is
    raised and no entry of the batch is stored. *)
Theorem add_unknown_state_unchanged
    (state_name : string) (county_list : list string) (stat : string)
    (status : status_map) :
  STATE_NAME_TO_FIPS !! state_name = None ->
  add state_name county_list stat status = status.
Proof. intros H. unfold add. by rewrite H. Qed.

Lemma add_unknown_state_unchanged_witness :
  STATE_NAME_TO_FIPS !! "Guam" = None /\
  add "Guam" ["Dededo"; "Yigo"] STATUS_DRY {[ ("48", "kent") := STATUS_DRY ]}
    = {[ ("48", "kent") := STATUS_DRY ]}.
Proof.
  split; [vm_compute; reflexivity|].
  apply (add_unknown_state_unchanged "Guam"). vm_compute; reflexivity.
Defined.

(** ** What the built table contains *)

Lemma add_calls_stats :
  Forall (fun c => call_stat c = STATUS_DRY \/ call_stat c = STATUS_MOIST) ADD_CALLS.
Proof. repeat (apply Forall_cons; split; [cbn; tauto|]). apply Forall_nil. done. Qed.

Lemma status_map_lookup_writer k v :
  COUNTY_STATUS_MAP !! k = Some v ->
  exists c, c ∈ ADD_CALLS /\ k ∈ call_keys c /\ call_stat c = v.
Proof.
  unfold COUNTY_STATUS_MAP. rewrite build_status_map_lookup.
  destruct (last (writers k ADD_CALLS)) as [c|] eqn:Hl; [|done].
  intros [= <-]. exists c.
  apply last_Some_elem_of, list_elem_of_filter in Hl as [Hk Hc]. done.
Qed.

(** Every value of the table is [Dry] or [Moist]. *)
Lemma status_map_values k v :
  COUNTY_STATUS_MAP !! k = Some v -> v = STATUS_DRY \/ v = STATUS_MOIST.
Proof.
  intros (c & Hc & _ & <-)%status_map_lookup_writer.
  pose proof add_calls_stats as F. rewrite Forall_forall in F.
  by apply F.
Qed.


(** ** Status resolution *)

Lemma get_status_unfold {G} (row : Gdf.row G) :
  get_status row =
    default STATUS_WET (COUNTY_STATUS_MAP !! (Gdf.STATEFP row, PyStr.lower (Gdf.NAME row))).
Proof.
  unfold get_status, dict_get, status_key.
  by destruct (COUNTY_STATUS_MAP !! _).
Qed.

Lemma get_status_three_valued {G} (row : Gdf.row G) :
  get_status row = STATUS_DRY \/ get_status row = STATUS_MOIST \/
  get_status row = STATUS_WET.
Proof.
  rewrite get_status_unfold.
  destruct (COUNTY_STATUS_MAP !! _) as [v|] eqn:Hv; simpl; [|tauto].
  apply status_map_values in Hv. tauto.
Qed.

(** C2.  A region whose key (state identifier, lowercased county name) is
    not in the status table resolves to [Wet]. *)
Theorem get_status_unlisted_wet {G} (row : Gdf.row G) :
  COUNTY_STATUS_MAP !! (Gdf.STATEFP row, PyStr.lower (Gdf.NAME row)) = None ->
  get_status row = STATUS_WET.
Proof. intros H. by rewrite get_status_unfold, H. Qed.

Lemma get_status_unlisted_wet_witness :
  COUNTY_STATUS_MAP !! ("05", PyStr.lower "Hot Spring") = None /\
  get_status (Gdf.Row "05059" "05" "Hot Spring" ()) = STATUS_WET.
Proof.
  split; [vm_compute; reflexivity|].
  apply (get_status_unlisted_wet (Gdf.Row "05059" "05" "Hot Spring" ())).
  vm_compute; reflexivity.
Defined.



(** ** The module-level dictionaries *)



Lemma dict_of_items_fold_lookup {V} (items : list (string * V))
    (d : gmap string V) (k : string) (v : V) :
  fold_left (fun d kv => <[kv.1 := kv.2]> d) items d !! k = Some v ->
  (k, v) ∈ items \/ d !! k = Some v.
Proof.
  revert d. induction items as [|[k' v'] items IH]; intros d; cbn [fold_left].
  - by right.
  - intros [H|H]%IH; [left; by apply list_elem_of_further|].
    cbn in H. destruct (decide (k' = k)) as [->|Hne].
    + rewrite lookup_insert_eq in H. injection H as ->. left. apply list_elem_of_here.
    + rewrite lookup_insert_ne in H by done. by right.
Qed.

Lemma dict_of_items_lookup {V} (items : list (string * V)) (k : string) (v : V) :
  dict_of_items items !! k = Some v -> (k, v) ∈ items.
Proof.
  intros [H|H]%dict_of_items_fold_lookup; [done|].
  by rewrite lookup_empty in H.
Qed.


Lemma state_names_invert :
  Forall (fun kv => STATE_NAME_TO_FIPS !! kv.2 = Some kv.1) STATE_FIPS_TO_NAME_items.
Proof.
  repeat (apply Forall_cons; split; [vm_compute; reflexivity|]).
  by apply Forall_nil.
Qed.

(** A state name determines its state identifier. *)
Lemma state_name_to_fips f n :
  STATE_FIPS_TO_NAME !! f = Some n -> STATE_NAME_TO_FIPS !! n = Some f.
Proof.
  intros H%dict_of_items_lookup.
  pose proof state_names_invert as F. rewrite Forall_forall in F.
  by apply (F (f, n)).
Qed.

(** ** The joiner *)

Lemma Forall2_map_diag {A B} (f : A -> B) (P : A -> B -> Prop) (l : list A) :
  (forall x, P x (f x)) -> Forall2 P l (map f l).
Proof. intros H. induction l; constructor; auto. Qed.

Lemma table_unfold {G J} (simplify : G -> G) (to_json : G -> J) (gdf : list (Gdf.row G)) :
  (build_county_dataset simplify to_json gdf).1
    = map (fun r => Df.Row (Gdf.GEOID r) (Gdf.NAME r)
                      (STATE_FIPS_TO_NAME !! Gdf.STATEFP r) (get_status r))
        (filter_states gdf).
Proof.
  unfold build_county_dataset, assign_columns. cbn [fst].
  by rewrite map_map.
Qed.

Lemma features_unfold {G J} (simplify : G -> G) (to_json : G -> J) (gdf : list (Gdf.row G)) :
  GeoJson.features (build_county_dataset simplify to_json gdf).2
    = map (fun r => GeoJson.Feature "Feature" (Gdf.GEOID r)
                      (GeoJson.Properties (Gdf.NAME r) (STATE_FIPS_TO_NAME !! Gdf.STATEFP r))
                      (to_json (simplify (Gdf.geometry r))))
        (filter_states gdf).
Proof.
  unfold build_county_dataset, simplify_rows, assign_columns. cbn [snd GeoJson.features].
  by rewrite !map_map.
Qed.

Lemma filter_states_elem {G} (gdf : list (Gdf.row G)) r :
  r ∈ filter_states gdf <-> Gdf.STATEFP r ∈ valid_states /\ r ∈ gdf.
Proof.
  unfold filter_states.
  apply (list_elem_of_filter (fun r => Gdf.STATEFP r ∈ valid_states)).
Qed.

(** Rows of the table come from kept regions, field by field. *)
Lemma table_row_origin {G J} (simplify : G -> G) (to_json : G -> J) gdf row :
  row ∈ (build_county_dataset simplify to_json gdf).1 ->
  exists r, r ∈ gdf /\ Gdf.STATEFP r ∈ valid_states /\
    Df.fips row = Gdf.GEOID r /\ Df.county row = Gdf.NAME r /\
    Df.state row = STATE_FIPS_TO_NAME !! Gdf.STATEFP r /\
    Df.status row = get_status r.
Proof.
  rewrite table_unfold. intros (r & -> & [Hv Hr]%filter_states_elem)%list_elem_of_fmap.
  exists r. done.
Qed.


(** Distinct region identifiers stay distinct in the table. *)
Lemma table_fips_nodup {G J} (simplify : G -> G) (to_json : G -> J) (gdf : list (Gdf.row G)) :
  NoDup (map Gdf.GEOID gdf) ->
  NoDup (map Df.fips (build_county_dataset simplify to_json gdf).1).
Proof.
  rewrite table_unfold, map_map. cbn [Df.fips]. unfold filter_states.
  induction gdf as [|r l IH]; cbn [map]; [done|].
  intros [Hr Hl]%NoDup_cons. rewrite filter_cons.
  destruct (decide _); [|by apply IH]. cbn [map]. apply NoDup_cons. split; [|by apply IH].
  intros (r' & Heq & [_ Hin]%list_elem_of_filter)%(list_elem_of_fmap Gdf.GEOID).
  apply Hr. rewrite Heq. by apply (list_elem_of_fmap_2 Gdf.GEOID).
Qed.


(** C3.  Every region of the filtered collection gets exactly one status:
    the table value under its key (state identifier, lowercased county
    name) when there is one, [Wet] otherwise; and that status is one of
    [Dry], [Moist], [Wet]. *)
Theorem join_total_three_valued {G J}
    (simplify : G -> G) (to_json : G -> J) (gdf : list (Gdf.row G)) :
  Forall2
    (fun r row =>
       Df.status row =
         default STATUS_WET
           (COUNTY_STATUS_MAP !! (Gdf.STATEFP r, PyStr.lower (Gdf.NAME r))) /\
       (Df.status row = STATUS_DRY \/ Df.status row = STATUS_MOIST \/
        Df.status row = STATUS_WET))
    (filter_states gdf) (build_county_dataset simplify to_json gdf).1.
Proof.
  rewrite table_unfold. apply Forall2_map_diag. intros r. cbn [Df.status].
  split; [apply get_status_unfold | apply get_status_three_valued].
Qed.




(** One spot check on a joined table: rows are matched by exact county and
    state name, the state name fixes the state identifier, and the status
    is the one the table resolves for that identifier and name. *)
Lemma joined_table_spot {G J} (simplify : G -> G) (to_json : G -> J) gdf
    (county state sfips expected : string) :
  STATE_NAME_TO_FIPS !! state = Some sfips ->
  default STATUS_WET (COUNTY_STATUS_MAP !! (sfips, PyStr.lower county)) = expected ->
  forall row, row ∈ (build_county_dataset simplify to_json gdf).1 ->
    Df.county row = county -> Df.state row = Some state ->
    Df.status row = expected.
Proof.
  intros Hfips Hexp row (r & _ & _ & _ & Hc & Hs & Hst)%table_row_origin Hcounty Hstate.
  rewrite Hstate in Hs. symmetry in Hs. apply state_name_to_fips in Hs.
  rewrite Hfips in Hs. injection Hs as Heq.
  by rewrite Hst, get_status_unfold, <- Heq, <- Hc, Hcounty.
Qed.

(** C6.  In any joined table, a row for Hot Spring, Arkansas is [Wet];
    Borden, Texas is [Dry]; Benton, Mississippi is [Dry]; Cullman, Alabama
    is [Moist]; Davidson, Tennessee is [Wet]; Moore, Tennessee is [Moist]. *)
Theorem joined_table_spot_checks {G J}
    (simplify : G -> G) (to_json : G -> J) (gdf : list (Gdf.row G)) (row : Df.row) :
  row ∈ (build_county_dataset simplify to_json gdf).1 ->
  (Df.county row = "Hot Spring" -> Df.state row = Some "Arkansas" ->
   Df.status row = STATUS_WET) /\
  (Df.county row = "Borden" -> Df.state row = Some "Texas" ->
   Df.status row = STATUS_DRY) /\
  (Df.county row = "Benton" -> Df.state row = Some "Mississippi" ->
   Df.status row = STATUS_DRY) /\
  (Df.county row = "Cullman" -> Df.state row = Some "Alabama" ->
   Df.status row = STATUS_MOIST) /\
  (Df.county row = "Davidson" -> Df.state row = Some "Tennessee" ->
   Df.status row = STATUS_WET) /\
  (Df.county row = "Moore" -> Df.state row = Some "Tennessee" ->
   Df.status row = STATUS_MOIST).
Proof.
  intros Hrow.
  repeat split; intros Hc Hs;
    (eapply (joined_table_spot simplify to_json gdf); [| |exact Hrow|exact Hc|exact Hs];
     vm_compute; reflexivity).
Qed.

Lemma joined_table_spot_checks_witness :
  let gdf := [ Gdf.Row "05059" "05" "Hot Spring" (); Gdf.Row "48033" "48" "Borden" ();
               Gdf.Row "28009" "28" "Benton" (); Gdf.Row "01043" "01" "Cullman" ();
               Gdf.Row "47037" "47" "Davidson" (); Gdf.Row "47127" "47" "Moore" () ] in
  map (fun row => (Df.county row, Df.state row, Df.status row))
      (build_county_dataset id id gdf).1
    = [ ("Hot Spring", Some "Arkansas", "Wet"); ("Borden", Some "Texas", "Dry");
        ("Benton", Some "Mississippi", "Dry"); ("Cullman", Some "Alabama", "Moist");
        ("Davidson", Some "Tennessee", "Wet"); ("Moore", Some "Tennessee", "Moist") ] /\
  Df.status (Df.Row "47127" "Moore" (Some "Tennessee") "Moist") = STATUS_MOIST.
Proof.
  intros gdf. split; [vm_compute; reflexivity|].
  apply (joined_table_spot_checks id id gdf
           (Df.Row "47127" "Moore" (Some "Tennessee") "Moist"));
    [vm_compute; set_solver | reflexivity | reflexivity].
Defined.

(** ** The verifier *)

Lemma check_step_spec (df : list Df.row) (out : list string) (b : bool)
    (chk : string * string * string * string) :
  exists line b',
    check_step df (out, b) chk = (out ++ [line], b') /\
    check_reported df chk line /\
    (b' = true <-> b = true /\ check_passes df chk).
Proof.
  destruct chk as [[[county state] expected] note].
  unfold check_step, check_reported, check_passes.
  destruct (select_rows df county state) as [|row rest] eqn:Hsel.
  - eexists _, false. split; [reflexivity|]. split; [reflexivity|].
    split; [done|]. intros [_ (? & ? & ? & _)]. done.
  - destruct (decide (Df.status row = expected)) as [Heq|Hne].
    + eexists _, b. split; [reflexivity|]. split; [by split|].
      split; [|tauto]. intros ->. split; [done|]. by exists row, rest.
    + eexists _, false. split; [reflexivity|]. split; [by split|].
      split; [done|]. intros [_ (row' & rest' & [= <- _] & ?)]. done.
Qed.

Lemma check_steps_spec (df : list Df.row) cs (out : list string) (b : bool) :
  exists lines b',
    fold_left (check_step df) cs (out, b) = (out ++ lines, b') /\
    Forall2 (check_reported df) cs lines /\
    (b' = true <-> b = true /\ Forall (check_passes df) cs).
Proof.
  revert out b. induction cs as [|chk cs IH]; intros out b; cbn [fold_left].
  - exists [], b. rewrite app_nil_r. split; [done|]. split; [constructor|].
    split; [by intros ->|tauto].
  - destruct (check_step_spec df out b chk) as (line & b1 & -> & Hrep & Hb1).
    destruct (IH (out ++ [line]) b1) as (lines & b' & -> & Hreps & Hb').
    exists (line :: lines), b'. rewrite <- app_assoc. split; [done|].
    split; [by constructor|].
    rewrite Hb', Hb1, Forall_cons. tauto.
Qed.

(** On a joined table every row matching a county and state name carries
    the same status, so the first match stands for all of them. *)
Lemma joined_table_matches_agree {G J} (simplify : G -> G) (to_json : G -> J) gdf
    (county state : string) row1 row2 :
  row1 ∈ select_rows (build_county_dataset simplify to_json gdf).1 county state ->
  row2 ∈ select_rows (build_county_dataset simplify to_json gdf).1 county state ->
  Df.status row1 = Df.status row2.
Proof.
  unfold select_rows.
  intros [[Hc1 Hs1] H1]%list_elem_of_filter [[Hc2 Hs2] H2]%list_elem_of_filter.
  apply table_row_origin in H1 as (r1 & _ & _ & _ & Hn1 & Hf1 & ->).
  apply table_row_origin in H2 as (r2 & _ & _ & _ & Hn2 & Hf2 & ->).
  rewrite Hs1 in Hf1. rewrite Hs2 in Hf2.
  symmetry in Hf1, Hf2. apply state_name_to_fips in Hf1, Hf2.
  rewrite Hf1 in Hf2. injection Hf2 as Hfp.
  rewrite !get_status_unfold. by rewrite Hfp, <- Hn1, <- Hn2, Hc1, Hc2.
Qed.


(** On a joined table a check passes exactly when some matching row has
    the expected status. *)
Lemma joined_table_check_passes {G J} (simplify : G -> G) (to_json : G -> J) gdf
    (county state expected note : string) :
  check_passes (build_county_dataset simplify to_json gdf).1
    (county, state, expected, note) <->
  exists row,
    row ∈ select_rows (build_county_dataset simplify to_json gdf).1 county state /\
    Df.status row = expected.
Proof.
  unfold check_passes. split.
  - intros (row & rest & Hsel & Hst). exists row. split; [|done].
    rewrite Hsel. apply list_elem_of_here.
  - intros (row & Hin & Hst).
    destruct (select_rows _ county state) as [|row0 rest] eqn:Hsel;
      [by apply elem_of_nil in Hin|].
    exists row0, rest. split; [done|]. rewrite <- Hst.
    apply (joined_table_matches_agree simplify to_json gdf county state);
      rewrite Hsel; [apply list_elem_of_here | done].
Qed.


(** * Further properties *)

(** ** Dependency check *)



(** ** The two state dictionaries *)

Lemma state_fips_invert :
  Forall (fun kv => STATE_FIPS_TO_NAME !! kv.1 = Some kv.2) STATE_FIPS_TO_NAME_items.
Proof.
  repeat (apply Forall_cons; split; [vm_compute; reflexivity|]).
  by apply Forall_nil.
Qed.

Lemma state_fips_to_name n f :
  STATE_NAME_TO_FIPS !! n = Some f -> STATE_FIPS_TO_NAME !! f = Some n.
Proof.
  intros H%dict_of_items_lookup.
  apply (list_elem_of_fmap (fun kv : string * string => (kv.2, kv.1))) in H
    as ([f' n'] & [= -> ->] & Hin).
  pose proof state_fips_invert as F. rewrite Forall_forall in F.
  by apply (F (f', n')).
Qed.

Lemma state_fips_truthy n f :
  STATE_NAME_TO_FIPS !! n = Some f -> PyStr.truthy f = true.
Proof.
  intros H%state_fips_to_name. destruct f; [|done].
  vm_compute in H. discriminate.
Qed.

(** X2.  [STATE_NAME_TO_FIPS] is the inverse of [STATE_FIPS_TO_NAME]: a code
    maps to a name exactly when that name maps back to the code, so no two
    codes share a name. *)
Theorem state_dictionaries_inverse (f n : string) :
  STATE_FIPS_TO_NAME !! f = Some n <-> STATE_NAME_TO_FIPS !! n = Some f.
Proof. split; [apply state_name_to_fips | apply state_fips_to_name]. Qed.

(** ** More on [add] *)

Lemma add_lookup (state_name : string) (county_list : list string) (stat : string)
    (status : status_map) (k : string * string) :
  add state_name county_list stat status !! k =
    if decide (k ∈ call_keys (AddCall state_name county_list stat))
    then Some stat else status !! k.
Proof. apply (run_add_lookup status (AddCall state_name county_list stat)). Qed.

Lemma call_keys_known (state_name : string) (county_list : list string)
    (stat sfips : string) :
  STATE_NAME_TO_FIPS !! state_name = Some sfips ->
  call_keys (AddCall state_name county_list stat)
    = map (fun n => (sfips, PyStr.lower n)) county_list.
Proof.
  intros H. unfold call_keys. cbn [call_state_name call_county_list].
  by rewrite H, (state_fips_truthy _ _ H).
Qed.

(** X3.  After [add] for a known state, every county of the list is in the
    dictionary under (state code, lowercased name) with the given status,
    whatever was stored there before. *)
Theorem add_stores_each_county
    (state_name sfips : string) (county_list : list string) (stat : string)
    (status : status_map) (county : string) :
  STATE_NAME_TO_FIPS !! state_name = Some sfips ->
  county ∈ county_list ->
  add state_name county_list stat status !! (sfips, PyStr.lower county) = Some stat.
Proof.
  intros Hs Hc. rewrite add_lookup, (call_keys_known _ _ _ _ Hs).
  rewrite decide_True; [done|].
  by apply (list_elem_of_fmap_2 (fun n => (sfips, PyStr.lower n))).
Qed.

Lemma add_stores_each_county_witness :
  add "Texas" ["Borden"; "Kent"] STATUS_DRY ∅ !! ("48", "kent") = Some STATUS_DRY.
Proof.
  apply (add_stores_each_county "Texas" "48" ["Borden"; "Kent"] STATUS_DRY ∅ "Kent").
  - vm_compute; reflexivity.
  - set_solver.
Defined.

(** X4.  [add] for one state leaves every entry of another state code, and
    every entry whose county name is not the lowercased form of a listed
    county, as it was. *)
Theorem add_leaves_other_entries
    (state_name sfips : string) (county_list : list string) (stat : string)
    (status : status_map) (k : string * string) :
  STATE_NAME_TO_FIPS !! state_name = Some sfips ->
  k.1 <> sfips \/ (forall n, n ∈ county_list -> PyStr.lower n <> k.2) ->
  add state_name county_list stat status !! k = status !! k.
Proof.
  intros Hs Hk. rewrite add_lookup, (call_keys_known _ _ _ _ Hs).
  rewrite decide_False; [done|].
  intros (n & -> & Hn)%(list_elem_of_fmap (fun n => (sfips, PyStr.lower n))).
  destruct Hk as [Hk|Hk]; [by apply Hk | by apply (Hk n)].
Qed.

Lemma add_leaves_other_entries_witness :
  add "Alabama" ["Clay"] STATUS_MOIST {[ ("05", "clay") := STATUS_DRY ]} !! ("05", "clay")
    = Some STATUS_DRY.
Proof.
  rewrite (add_leaves_other_entries "Alabama" "01" ["Clay"] STATUS_MOIST
             {[ ("05", "clay") := STATUS_DRY ]} ("05", "clay")).
  - vm_compute; reflexivity.
  - vm_compute; reflexivity.
  - left. cbn. discriminate.
Defined.

Lemma add_counties_dom (sfips : string) (county_list : list string) (stat : string)
    (status : status_map) :
  dom (add_counties sfips county_list stat status)
    = dom status ∪ list_to_set (map (fun n => (sfips, PyStr.lower n)) county_list).
Proof.
  unfold add_counties. revert status.
  induction county_list as [|n l IH]; intros status; cbn [fold_left map].
  - set_solver.
  - rewrite IH, dom_insert_L. cbn [list_to_set]. set_solver.
Qed.

Lemma add_counties_size (sfips : string) (county_list : list string) (stat : string)
    (status : status_map) :
  size (add_counties sfips county_list stat status) <= size status + length county_list.
Proof.
  unfold add_counties. revert status.
  induction county_list as [|n l IH]; intros status; cbn [fold_left length]; [lia|].
  etrans; [apply IH|]. rewrite map_size_insert.
  destruct (status !! _); cbn; lia.
Qed.

(** X5.  [add] never removes an entry: the keys it returns are the keys it
    was given plus the keys of the batch, and the dictionary grows by at
    most the length of the county list. *)
Theorem add_only_grows
    (state_name : string) (county_list : list string) (stat : string)
    (status : status_map) :
  dom (add state_name county_list stat status)
    = dom status ∪ list_to_set (call_keys (AddCall state_name county_list stat)) /\
  size status <= size (add state_name county_list stat status) /\
  size (add state_name county_list stat status) <= size status + length county_list.
Proof.
  assert (dom (add state_name county_list stat status)
    = dom status ∪ list_to_set (call_keys (AddCall state_name county_list stat))) as Hd.
  { unfold add, call_keys. cbn [call_state_name call_county_list].
    destruct (STATE_NAME_TO_FIPS !! state_name) as [f|]; [|set_solver].
    destruct (PyStr.truthy f); cbn [negb]; [apply add_counties_dom | set_solver]. }
  split; [done|]. split.
  - rewrite <- !size_dom, Hd. apply subseteq_size, union_subseteq_l.
  - unfold add. destruct (STATE_NAME_TO_FIPS !! state_name) as [f|]; [|lia].
    destruct (PyStr.truthy f); cbn [negb]; [apply add_counties_size | lia].
Qed.

(** X6.  Running the same [add] call twice is the same as running it once. *)
Theorem add_idempotent
    (state_name : string) (county_list : list string) (stat : string)
    (status : status_map) :
  add state_name county_list stat (add state_name county_list stat status)
    = add state_name county_list stat status.
Proof.
  apply map_eq. intros k. rewrite !add_lookup. by case_decide.
Qed.

(** X7.  Two [add] calls for different state names commute: batches of
    different states never write the same key, so their order in
    [_build_status_map] does not matter. *)
Theorem add_commutes_across_states
    (name1 name2 : string) (list1 list2 : list string) (stat1 stat2 : string)
    (status : status_map) :
  name1 <> name2 ->
  add name1 list1 stat1 (add name2 list2 stat2 status)
    = add name2 list2 stat2 (add name1 list1 stat1 status).
Proof.
  intros Hne. apply map_eq. intros k. rewrite !add_lookup.
  destruct (decide (k ∈ call_keys (AddCall name1 list1 stat1))) as [H1|H1];
    destruct (decide (k ∈ call_keys (AddCall name2 list2 stat2))) as [H2|H2];
    try done.
  exfalso. apply Hne.
  unfold call_keys in H1, H2. cbn [call_state_name call_county_list] in H1, H2.
  destruct (STATE_NAME_TO_FIPS !! name1) as [f1|] eqn:E1; [|by apply elem_of_nil in H1].
  destruct (STATE_NAME_TO_FIPS !! name2) as [f2|] eqn:E2; [|by apply elem_of_nil in H2].
  destruct (PyStr.truthy f1); [|by apply elem_of_nil in H1].
  destruct (PyStr.truthy f2); [|by apply elem_of_nil in H2].
  apply (list_elem_of_fmap (fun n => (f1, PyStr.lower n))) in H1 as (n1 & -> & _).
  apply (list_elem_of_fmap (fun n => (f2, PyStr.lower n))) in H2 as (n2 & [= <- _] & _).
  apply state_fips_to_name in E1, E2. rewrite E1 in E2. by injection E2.
Qed.

Lemma add_commutes_across_states_witness :
  add "Texas" ["Kent"] STATUS_DRY (add "Alabama" ["Clay"] STATUS_MOIST ∅)
    = add "Alabama" ["Clay"] STATUS_MOIST (add "Texas" ["Kent"] STATUS_DRY ∅).
Proof.
  apply (add_commutes_across_states "Texas" "Alabama"). discriminate.
Defined.

(** ** The finished table *)



(** X9.  A region resolves to [Wet] only by default: its status is [Wet]
    exactly when its key is absent from the table. *)
Theorem get_status_wet_iff_unlisted {G} (row : Gdf.row G) :
  get_status row = STATUS_WET <->
  COUNTY_STATUS_MAP !! (Gdf.STATEFP row, PyStr.lower (Gdf.NAME row)) = None.
Proof.
  rewrite get_status_unfold.
  destruct (COUNTY_STATUS_MAP !! _) as [v|] eqn:Hv; simpl; [|done].
  split; [|done]. intros ->. by apply status_map_values in Hv as [?|?].
Qed.

(** ** More on the joiner *)

(** X10.  No row of a joined table and no feature lacks its state name:
    the filter keeps only regions whose state identifier has a name. *)
Theorem joined_state_name_present {G J}
    (simplify : G -> G) (to_json : G -> J) (gdf : list (Gdf.row G)) :
  Forall (fun row => exists n, Df.state row = Some n /\
                               is_Some (STATE_NAME_TO_FIPS !! n))
         (build_county_dataset simplify to_json gdf).1 /\
  Forall (fun feat => is_Some (GeoJson.state (GeoJson.props feat)))
         (GeoJson.features (build_county_dataset simplify to_json gdf).2).
Proof.
  split.
  - apply Forall_forall. intros row (r & _ & Hv & _ & _ & Hs & _)%table_row_origin.
    unfold valid_states in Hv. apply elem_of_dom in Hv as [n Hn].
    exists n. rewrite Hs. split; [done|].
    exists (Gdf.STATEFP r). by apply state_name_to_fips.
  - rewrite features_unfold. apply Forall_forall.
    intros feat (r & -> & [Hv _]%filter_states_elem)%list_elem_of_fmap.
    cbn [GeoJson.props GeoJson.state].
    unfold valid_states in Hv. by apply elem_of_dom in Hv.
Qed.




(** X13.  When the regions of the input have distinct identifiers, so do
    the rows of the table and the features of the geometry collection, so
    each row is joined to exactly one feature. *)
Theorem joined_identifiers_unique {G J}
    (simplify : G -> G) (to_json : G -> J) (gdf : list (Gdf.row G)) :
  NoDup (map Gdf.GEOID gdf) ->
  NoDup (map Df.fips (build_county_dataset simplify to_json gdf).1) /\
  NoDup (map GeoJson.id (GeoJson.features (build_county_dataset simplify to_json gdf).2)).
Proof.
  intros H. pose proof (table_fips_nodup simplify to_json gdf H) as Hn.
  split; [done|].
  rewrite table_unfold, map_map in Hn. by rewrite features_unfold, map_map.
Qed.

Lemma joined_identifiers_unique_witness :
  NoDup (map Df.fips
    (build_county_dataset id id
       [Gdf.Row "48033" "48" "Borden" (); Gdf.Row "66010" "66" "Guam" ();
        Gdf.Row "48263" "48" "Kent" ()]).1).
Proof.
  apply (joined_identifiers_unique id id).
  cbn [map Gdf.GEOID]. repeat (apply NoDup_cons; split; [set_solver|]). apply NoDup_nil_2.
Defined.

(** ** Map statistics *)

Lemma count_status_cons (row : Df.row) (df : list Df.row) (s : string) :
  count_status (row :: df) s
    = (if decide (Df.status row = s) then 1 else 0) + count_status df s.
Proof. unfold count_status. rewrite filter_cons. by destruct (decide _). Qed.

Lemma counts_partition (df : list Df.row) :
  Forall (fun row => Df.status row = STATUS_DRY \/ Df.status row = STATUS_MOIST \/
                     Df.status row = STATUS_WET) df ->
  count_status df STATUS_DRY + count_status df STATUS_MOIST
    + count_status df STATUS_WET = length df.
Proof.
  induction 1 as [|row df Hrow _ IH]; [done|].
  rewrite !count_status_cons. cbn [length]. rewrite <- IH.
  unfold STATUS_DRY, STATUS_MOIST, STATUS_WET in *.
  destruct Hrow as [-> | [-> | ->]]; repeat case_decide; first [lia | congruence].
Qed.

Lemma joined_table_three_valued {G J}
    (simplify : G -> G) (to_json : G -> J) (gdf : list (Gdf.row G)) :
  Forall (fun row => Df.status row = STATUS_DRY \/ Df.status row = STATUS_MOIST \/
                     Df.status row = STATUS_WET)
         (build_county_dataset simplify to_json gdf).1.
Proof.
  apply Forall_forall. intros row (r & _ & _ & _ & _ & _ & ->)%table_row_origin.
  apply get_status_three_valued.
Qed.

(** X14.  On a joined table the three counts [create_map] reports add up
    to the total: every county is counted once, as Dry, Moist or Wet. *)
Theorem county_stats_partition {G J}
    (simplify : G -> G) (to_json : G -> J) (gdf : list (Gdf.row G)) :
  let '(n_dry, n_moist, n_wet, total) :=
    county_stats (build_county_dataset simplify to_json gdf).1 in
  n_dry + n_moist + n_wet = total /\
  total = length (filter_states gdf).
Proof.
  unfold county_stats. split.
  - apply counts_partition, joined_table_three_valued.
  - by rewrite table_unfold, length_map.
Qed.

(** X15.  Every status that occurs in a joined table has a colour in
    [color_map] and a place in the legend order, so no county is drawn
    with a colour plotly picks by itself. *)
Theorem joined_statuses_have_colours {G J}
    (simplify : G -> G) (to_json : G -> J) (gdf : list (Gdf.row G)) :
  Forall (fun row => is_Some (color_map !! Df.status row) /\
                     Df.status row ∈ category_orders_status)
         (build_county_dataset simplify to_json gdf).1.
Proof.
  eapply Forall_impl; [apply joined_table_three_valued|].
  intros row [-> | [-> | ->]]; (split; [by eexists; vm_compute | ]);
    unfold category_orders_status.
  - apply list_elem_of_further, list_elem_of_further, list_elem_of_here.
  - apply list_elem_of_further, list_elem_of_here.
  - apply list_elem_of_here.
Qed.

(** ** The verifier on joined tables *)

Lemma checks_agree_with_table :
  Forall (fun chk : string * string * string * string =>
            exists sfips,
              STATE_NAME_TO_FIPS !! chk.1.1.2 = Some sfips /\
              default STATUS_WET (COUNTY_STATUS_MAP !! (sfips, PyStr.lower chk.1.1.1))
                = chk.1.2)
         checks.
Proof.
  repeat (apply Forall_cons; split;
          [eexists; split; vm_compute; reflexivity|]).
  by apply Forall_nil.
Qed.

Lemma joined_check_status {G J} (simplify : G -> G) (to_json : G -> J) gdf
    (county state expected note : string) row rest :
  (county, state, expected, note) ∈ checks ->
  select_rows (build_county_dataset simplify to_json gdf).1 county state = row :: rest ->
  Df.status row = expected.
Proof.
  intros Hchk Hsel.
  pose proof checks_agree_with_table as F. rewrite Forall_forall in F.
  destruct (F _ Hchk) as (sfips & Hf & He). cbn [fst snd] in Hf, He.
  assert (row ∈ select_rows (build_county_dataset simplify to_json gdf).1 county state)
    as Hin by (rewrite Hsel; apply list_elem_of_here).
  unfold select_rows in Hin. apply list_elem_of_filter in Hin as [[Hc Hs] Hin].
  by apply (joined_table_spot simplify to_json gdf county state sfips expected Hf He row).
Qed.

Lemma joined_check_passes_iff {G J} (simplify : G -> G) (to_json : G -> J) gdf
    (county state expected note : string) :
  (county, state, expected, note) ∈ checks ->
  check_passes (build_county_dataset simplify to_json gdf).1
    (county, state, expected, note) <-> has_region gdf county state.
Proof.
  intros Hchk. unfold check_passes, has_region. split.
  - intros (row & rest & Hsel & _).
    assert (row ∈ select_rows (build_county_dataset simplify to_json gdf).1 county state)
      as Hin by (rewrite Hsel; apply list_elem_of_here).
    unfold select_rows in Hin. apply list_elem_of_filter in Hin as [[Hc Hs] Hin].
    apply table_row_origin in Hin as (r & Hr & _ & _ & Hn & Hst & _).
    exists r. split; [done|]. split; [by rewrite <- Hn|]. by rewrite <- Hst.
  - intros (r & Hr & Hn & Hs).
    assert (Df.Row (Gdf.GEOID r) (Gdf.NAME r) (STATE_FIPS_TO_NAME !! Gdf.STATEFP r)
              (get_status r)
            ∈ select_rows (build_county_dataset simplify to_json gdf).1 county state)
      as Hin.
    { unfold select_rows. apply list_elem_of_filter. split; [by split|].
      rewrite table_unfold.
      apply (list_elem_of_fmap_2
               (fun r => Df.Row (Gdf.GEOID r) (Gdf.NAME r)
                           (STATE_FIPS_TO_NAME !! Gdf.STATEFP r) (get_status r))).
      apply filter_states_elem. split; [|done].
      unfold valid_states. apply elem_of_dom. by exists state. }
    destruct (select_rows _ county state) as [|row rest] eqn:Hsel;
      [by apply elem_of_nil in Hin|].
    exists row, rest. split; [done|].
    by apply (joined_check_status simplify to_json gdf county state expected note row rest).
Qed.

(** X16.  On a joined table [verify_data] returns [True] exactly when the
    input collection has a region for each of the eleven checked counties:
    the only way a check can fail there is a missing county. *)
Theorem verify_data_true_iff_regions_present {G J}
    (simplify : G -> G) (to_json : G -> J) (gdf : list (Gdf.row G)) :
  (verify_data (build_county_dataset simplify to_json gdf).1).2 = true <->
  Forall (fun chk : string * string * string * string =>
            has_region gdf chk.1.1.1 chk.1.1.2) checks.
Proof.
  unfold verify_data, run_checks.
  destruct (check_steps_spec (build_county_dataset simplify to_json gdf).1
              checks [header_line] true) as (lines & b' & -> & _ & Hb).
  cbn [snd]. rewrite Hb, !Forall_forall.
  split.
  - intros [_ H] [[[county state] expected] note] Hchk. cbn [fst snd].
    apply (joined_check_passes_iff simplify to_json gdf county state expected note Hchk).
    by apply H.
  - intros H. split; [done|]. intros [[[county state] expected] note] Hchk.
    apply (joined_check_passes_iff simplify to_json gdf county state expected note Hchk).
    by apply (H (county, state, expected, note)).
Qed.

Lemma Forall2_impl_elem {A B} (P Q : A -> B -> Prop) (l : list A) (k : list B) :
  Forall2 P l k -> (forall x y, x ∈ l -> P x y -> Q x y) -> Forall2 Q l k.
Proof.
  induction 1 as [|x y l k Hxy _ IH]; intros H; constructor.
  - apply H; [apply list_elem_of_here | done].
  - apply IH. intros x' y' Hx'. apply H. by apply list_elem_of_further.
Qed.

(** X17.  On a joined table [verify_data] never reports FAIL: after the
    header it prints, for each check in order, either the MISS line or the
    PASS line showing the expected status. *)
Theorem verify_data_never_fails_on_joined_table {G J}
    (simplify : G -> G) (to_json : G -> J) (gdf : list (Gdf.row G)) :
  exists lines,
    (verify_data (build_county_dataset simplify to_json gdf).1).1
      = header_line :: lines /\
    Forall2
      (fun (chk : string * string * string * string) line =>
         let '(county, state, expected, note) := chk in
         line = miss_line county state \/
         line = result_line "PASS" county state expected expected note)
      checks lines.
Proof.
  unfold verify_data, run_checks.
  destruct (check_steps_spec (build_county_dataset simplify to_json gdf).1
              checks [header_line] true) as (lines & b' & -> & Hrep & _).
  exists lines. split; [done|].
  apply (Forall2_impl_elem _ _ _ _ Hrep).
  intros [[[county state] expected] note] line Hchk Hline.
  unfold check_reported in Hline.
  destruct (select_rows _ county state) as [|row rest] eqn:Hsel; [by left|].
  right.
  pose proof (joined_check_status simplify to_json gdf county state expected note
                row rest Hchk Hsel) as Hst.
  destruct Hline as [Hpass _]. rewrite Hst in Hpass. by apply Hpass.
Qed.
